(** * DBus-Python: the Mutter DisplayConfig client (src/dbustest.py)

    A shallow embedding of the two classes of [src/dbustest.py],
    [DisplayMode] and [DisplayConfig], and the properties of them that the
    specification talks about.

    - Python and D-Bus values are the inductive type [value].
    - Code that can raise returns a [result]; the exceptions are the Python
      ones the source can raise.
    - [DisplayConfig] talks to the compositor over the session bus.  The
      remote object is the type class [MutterService]: a state and one
      transition per remote method.  Methods of [DisplayConfig] are
      computations over a [world]: the remote service, the log of the remote
      calls made so far, what was printed, and the attributes of [self]. *)

From Stdlib Require Import ZArith QArith List String Ascii Bool Lia.
Import ListNotations.

Local Open Scope string_scope.
Local Open Scope Z_scope.
Local Open Scope list_scope.

Set Implicit Arguments.
Set Warnings "-register-all".

(** ** Values *)

(** Python distinguishes tuples (among them [dbus.Struct]) from lists (among
    them [dbus.Array]); indexing, [len] and iteration treat them alike, the
    [%] operator does not. *)
Inductive seq_kind : Type := Tuple | List.

(** [VInt] stands for Python's [int] and the D-Bus integer types, [VDouble]
    for [dbus.Double], [VStr] for [str] and [dbus.String], [VDict] for an
    [a{sv}] dictionary: its keys are strings, in insertion order. *)
Inductive value : Type :=
| VNone
| VBool (b : bool)
| VInt (z : Z)
| VDouble (q : Q)
| VStr (s : string)
| VSeq (k : seq_kind) (l : list value)
| VDict (d : list (string * value)).

(** ** Exceptions and results *)

Inductive exn : Type :=
| IndexError
| KeyError
| TypeError
| ValueError
| AttributeError (name : string)
| DBusException (name : string).

Inductive result (A : Type) : Type :=
| Ok (a : A)
| Raise (e : exn).

Arguments Ok {A} a.
Arguments Raise {A} e.

Definition is_ok {A} (r : result A) : bool :=
  match r with Ok _ => true | Raise _ => false end.

Definition rbind {A B} (r : result A) (k : A -> result B) : result B :=
  match r with
  | Ok a => k a
  | Raise e => Raise e
  end.

Fixpoint rmap {A B} (f : A -> result B) (l : list A) : result (list B) :=
  match l with
  | [] => Ok []
  | a :: l' =>
      rbind (f a) (fun b => rbind (rmap f l') (fun bs => Ok (b :: bs)))
  end.

(** ** Python's subscript, [len], iteration and [in] *)

(** [l[z]] for a sequence of items: negative subscripts count from the end. *)
Definition seq_at {A} (l : list A) (z : Z) : result A :=
  let n := Z.of_nat (List.length l) in
  let z' := if z <? 0 then z + n else z in
  if (0 <=? z') && (z' <? n) then
    match nth_error l (Z.to_nat z') with
    | Some a => Ok a
    | None => Raise IndexError
    end
  else Raise IndexError.

(** A subscript has to be an integer ([bool] is a subclass of [int]). *)
Definition as_index (i : value) : option Z :=
  match i with
  | VInt z => Some z
  | VBool b => Some (if b then 1 else 0)
  | _ => None
  end.

Fixpoint lookup (k : string) (d : list (string * value)) : option value :=
  match d with
  | [] => None
  | (k', v) :: d' => if String.eqb k k' then Some v else lookup k d'
  end.

Definition chars (s : string) : list value :=
  map (fun c => VStr (String c EmptyString)) (list_ascii_of_string s).

(** [v[i]] *)
Definition getitem (v i : value) : result value :=
  match v with
  | VSeq _ l =>
      match as_index i with
      | Some z => seq_at l z
      | None => Raise TypeError
      end
  | VStr s =>
      match as_index i with
      | Some z => seq_at (chars s) z
      | None => Raise TypeError
      end
  | VDict d =>
      match i with
      | VStr k =>
          match lookup k d with
          | Some x => Ok x
          | None => Raise KeyError
          end
      | _ => Raise KeyError
      end
  | _ => Raise TypeError
  end.

(** The items a [for] loop, an unpacking assignment or [str.join] draws from
    a value. *)
Definition iter (v : value) : result (list value) :=
  match v with
  | VSeq _ l => Ok l
  | VStr s => Ok (chars s)
  | VDict d => Ok (map (fun kv => VStr (fst kv)) d)
  | _ => Raise TypeError
  end.

(** [len(v)] *)
Definition len (v : value) : result value :=
  match v with
  | VSeq _ l => Ok (VInt (Z.of_nat (List.length l)))
  | VStr s => Ok (VInt (Z.of_nat (String.length s)))
  | VDict d => Ok (VInt (Z.of_nat (List.length d)))
  | _ => Raise TypeError
  end.

Fixpoint is_substring (s t : string) : bool :=
  if String.prefix s t then true
  else match t with
       | EmptyString => false
       | String _ t' => is_substring s t'
       end.

Definition is_str (s : string) (v : value) : bool :=
  match v with
  | VStr s' => String.eqb s s'
  | _ => false
  end.

(** [s in v] for a string [s]: a key of a dictionary, an item of a sequence,
    a substring of a string. *)
Definition contains (s : string) (v : value) : result bool :=
  match v with
  | VDict d => Ok (existsb (fun kv => String.eqb s (fst kv)) d)
  | VSeq _ l => Ok (existsb (is_str s) l)
  | VStr t => Ok (is_substring s t)
  | _ => Raise TypeError
  end.

(** ** Printed text *)

(** What [print] is handed.  The rendering of a value other than a string is
    left to Python; the text keeps the value. *)
Inductive text : Type :=
| Lit (s : string)
| Shown (v : value)
| Format (fmt : string) (args : list value).

Fixpoint count_specs (fmt : string) : nat :=
  match fmt with
  | EmptyString => 0%nat
  | String c fmt' =>
      if Ascii.eqb c "%"%char then S (count_specs fmt') else count_specs fmt'
  end.

(** [fmt % v]: a tuple supplies one argument per conversion, any other value
    is the only argument; a wrong number of arguments is a [TypeError]. *)
Definition percent (fmt : string) (v : value) : result text :=
  let args := match v with VSeq Tuple l => l | _ => [v] end in
  if Nat.eqb (count_specs fmt) (List.length args)
  then Ok (Format fmt args)
  else Raise TypeError.

(** A [str.join] argument has to yield strings only. *)
Definition as_str (v : value) : result string :=
  match v with
  | VStr s => Ok s
  | _ => Raise TypeError
  end.

Definition join (sep : string) (v : value) : result string :=
  rbind (iter v) (fun items =>
  rbind (rmap as_str items) (fun strs => Ok (String.concat sep strs))).

(** [a, b, ... = v] with [n] targets. *)
Definition unpack (n : nat) (v : value) : result (list value) :=
  rbind (iter v) (fun items =>
  if Nat.eqb (List.length items) n then Ok items else Raise ValueError).

(** ** class DisplayMode *)

Module DisplayMode.

(** The one attribute of a [DisplayMode] is the record it was built from. *)
Record t : Type := { mode_info : value }.

(** [__init__(self, mode_info)]: stores the record, reads nothing of it. *)
Definition __init__ (mode_info : value) : t :=
  {| mode_info := mode_info |}.

Definition mode_id (self : t) : result value :=
  getitem (mode_info self) (VInt 0).

Definition width (self : t) : result value :=
  getitem (mode_info self) (VInt 1).

Definition height (self : t) : result value :=
  getitem (mode_info self) (VInt 2).

Definition frequency (self : t) : result value :=
  getitem (mode_info self) (VInt 3).

Definition scale (self : t) : result value :=
  getitem (mode_info self) (VInt 4).

Definition supported_scale (self : t) : result value :=
  getitem (mode_info self) (VInt 5).

Definition properties (self : t) : result value :=
  getitem (mode_info self) (VInt 6).

(** ["is-current" in self.properties] *)
Definition is_current (self : t) : result bool :=
  rbind (properties self) (contains "is-current").

(** [__str__]: ["%sx%s@%s" % (self.width, self.height, self.frequency)] *)
Definition __str__ (self : t) : result text :=
  rbind (width self) (fun w =>
  rbind (height self) (fun h =>
  rbind (frequency self) (fun f =>
  percent "%sx%s@%s" (VSeq Tuple [w; h; f])))).

(** The accessors by the position they read. *)
Definition accessors : list (nat * (t -> result value)) :=
  [ (0%nat, mode_id); (1%nat, width); (2%nat, height); (3%nat, frequency);
    (4%nat, scale); (5%nat, supported_scale); (6%nat, properties) ].

End DisplayMode.

(** ** The remote object [org.gnome.Mutter.DisplayConfig] *)

(** The compositor, seen from the client: a state of its own, and for each
    remote method what it answers (or the [DBusException] it raises) and the
    state it moves to. *)
Class MutterService : Type := {
  Bus : Type;
  GetResources : Bus -> result value * Bus;
  GetCurrentState : Bus -> result value * Bus;
  ApplyMonitorsConfig :
    value -> value -> value -> value -> Bus -> result value * Bus
}.

(** Python's built-in [str], which the source calls on a mode id.  On a
    string (a [dbus.String] too) it is the string; the rest is Python's. *)
Class Builtins : Type := {
  str : value -> string;
  str_of_str : forall s, str (VStr s) = s
}.

(** The remote calls a client makes, as they go out. *)
Inductive call : Type :=
| CallGetResources
| CallGetCurrentState
| CallApplyMonitorsConfig (serial method monitors properties : value).

Definition is_read (c : call) : bool :=
  match c with
  | CallGetResources | CallGetCurrentState => true
  | CallApplyMonitorsConfig _ _ _ _ => false
  end.

(** ** class DisplayConfig *)

Module DisplayConfig.

Definition namespace : string := "org.gnome.Mutter.DisplayConfig".
Definition dbus_path : string := "/org/gnome/Mutter/DisplayConfig".

(** Methods used in ApplyMonitorConfig *)
Definition VERIFY_METHOD : Z := 0.
Definition TEMPORARY_METHOD : Z := 1.
Definition PERSISTENT_METHOD : Z := 2.

(** [dbus.Interface(proxy_obj, dbus_interface=...)] *)
Record proxy : Type := {
  bus_name : string;
  object_path : string;
  dbus_interface : string
}.

(** The attributes of an instance; [None] is an attribute not yet set. *)
Record attrs : Type := {
  interface : option proxy;
  resources : option value;
  current_state : option value;
  config_serial : option value
}.

Definition fresh : attrs :=
  {| interface := None; resources := None; current_state := None;
     config_serial := None |}.

(** What the specification calls the snapshot held by a client. *)
Definition snapshot (a : attrs) : option value * option value * option value :=
  (resources a, current_state a, config_serial a).

(** What a builder method leaves behind: its local [monitors] and the
    value it returns. *)
Record frame : Type := { monitors : value; returned : value }.

Section Client.

Context {service : MutterService} {builtins : Builtins}.

Record world : Type := {
  bus : Bus;
  calls : list call;
  stdout : list (list text);
  self : attrs
}.

(** A method body: runs in a world, returns or raises, leaves a world. *)
Definition M (A : Type) : Type := world -> result A * world.

Definition ret {A} (a : A) : M A := fun w => (Ok a, w).

Definition bind {A B} (m : M A) (k : A -> M B) : M B :=
  fun w =>
    match m w with
    | (Ok a, w') => k a w'
    | (Raise e, w') => (Raise e, w')
    end.

Definition lift {A} (r : result A) : M A := fun w => (r, w).

Definition outcome {A} (m : M A) (w : world) : result A := fst (m w).
Definition after {A} (m : M A) (w : world) : world := snd (m w).

Definition with_self (a : attrs) (w : world) : world :=
  {| bus := bus w; calls := calls w; stdout := stdout w; self := a |}.

(** [self.<name>] *)
Definition getattr {A} (name : string) (field : attrs -> option A) : M A :=
  fun w =>
    match field (self w) with
    | Some v => (Ok v, w)
    | None => (Raise (AttributeError name), w)
    end.

(** [self.<name> = v] *)
Definition setattr (update : attrs -> attrs) : M unit :=
  fun w => (Ok tt, with_self (update (self w)) w).

(** [print(...)] *)
Definition print (line : list text) : M unit :=
  fun w =>
    (Ok tt,
     {| bus := bus w; calls := calls w; stdout := stdout w ++ [line];
        self := self w |}).

(** [self.interface.<method>(...)]: the call goes out, the service
    answers and moves on. *)
Definition remote (c : call) (method : Bus -> result value * Bus)
  : M value :=
  fun w =>
    let (r, b) := method (bus w) in
    (r, {| bus := b; calls := calls w ++ [c]; stdout := stdout w;
           self := self w |}).

Fixpoint for_each (body : value -> M unit) (items : list value) : M unit :=
  match items with
  | [] => ret tt
  | item :: rest => bind (body item) (fun _ => for_each body rest)
  end.

Local Notation "x <- m ;; k" := (bind m (fun x => k))
  (at level 61, m at next level, right associativity).
Local Notation "m ;; k" := (bind m (fun _ => k))
  (at level 61, right associativity).

Definition set_interface (p : proxy) (a : attrs) : attrs :=
  {| interface := Some p; resources := resources a;
     current_state := current_state a; config_serial := config_serial a |}.

Definition set_resources (v : value) (a : attrs) : attrs :=
  {| interface := interface a; resources := Some v;
     current_state := current_state a; config_serial := config_serial a |}.

Definition set_current_state (v : value) (a : attrs) : attrs :=
  {| interface := interface a; resources := resources a;
     current_state := Some v; config_serial := config_serial a |}.

Definition set_config_serial (v : value) (a : attrs) : attrs :=
  {| interface := interface a; resources := resources a;
     current_state := current_state a; config_serial := Some v |}.

(** [__init__(self)].  Getting the session bus and the proxy object is
    taken to succeed; the two reads are the first traffic. *)
Definition __init__ : M unit :=
  setattr (set_interface
             {| bus_name := namespace; object_path := dbus_path;
                dbus_interface := namespace |}) ;;
  getattr "interface" interface ;;
  res <- remote CallGetResources GetResources ;;
  setattr (set_resources res) ;;
  getattr "interface" interface ;;
  cur <- remote CallGetCurrentState GetCurrentState ;;
  setattr (set_current_state cur) ;;
  cur' <- getattr "current_state" current_state ;;
  s <- lift (getitem cur' (VInt 0)) ;;
  setattr (set_config_serial s).

(** [DisplayConfig()]: a new instance, then [__init__] on it. *)
Definition new : M unit :=
  fun w => __init__ (with_self fresh w).

(** The properties over [self.resources]. *)
Definition serial : M value :=
  r <- getattr "resources" resources ;; lift (getitem r (VInt 0)).

Definition crtcs : M value :=
  r <- getattr "resources" resources ;; lift (getitem r (VInt 1)).

Definition outputs : M value :=
  r <- getattr "resources" resources ;; lift (getitem r (VInt 2)).

Definition modes : M value :=
  r <- getattr "resources" resources ;; lift (getitem r (VInt 3)).

Definition max_screen_width : M value :=
  r <- getattr "resources" resources ;; lift (getitem r (VInt 4)).

Definition max_screen_height : M value :=
  r <- getattr "resources" resources ;; lift (getitem r (VInt 5)).

(** [available_modes(self, monitor)]: reads nothing of [self]. *)
Definition available_modes (monitor : value) : result value :=
  rbind (getitem monitor (VInt 1)) (fun modes =>
  rbind (iter modes) (fun items =>
  rbind (rmap (fun mode =>
                 rbind (getitem mode (VInt 0)) (fun id => Ok (VStr (str id))))
              items) (fun mode_list =>
  Ok (VSeq List mode_list)))).

Definition print_monitor_config (monitor : value) : M unit :=
  print [Lit "Print Monitor Config"] ;;
  items <- lift (unpack 3 monitor) ;;
  match items with
  | [monitor_info; modes; props] =>
      joined <- lift (join " " monitor_info) ;;
      print [Lit joined] ;;
      mode_items <- lift (iter modes) ;;
      for_each (fun mode =>
                  let d_mode := DisplayMode.__init__ mode in
                  current <- lift (DisplayMode.is_current d_mode) ;;
                  if current : bool then
                    shown <- lift (DisplayMode.__str__ d_mode) ;;
                    print [Lit "Current: "; shown]
                  else ret tt)
               mode_items ;;
      print [Shown props]
  | _ => lift (Raise ValueError)
  end.

Definition print_current_state : M unit :=
  state <- getattr "current_state" current_state ;;
  items <- lift (unpack 4 state) ;;
  match items with
  | [serial; monitors; logical_monitors; properties] =>
      line <- lift (percent "Serial: %s" serial) ;;
      print [line] ;;
      n <- lift (len monitors) ;;
      print [Lit "Monitors num:"; Shown n] ;;
      monitor_items <- lift (iter monitors) ;;
      for_each (fun monitor =>
                  print [Lit "Available Monitor Modes"] ;;
                  mode_list <- lift (available_modes monitor) ;;
                  print [Shown mode_list] ;;
                  print_monitor_config monitor)
               monitor_items ;;
      print [Lit "Logical monitors"] ;;
      logical_items <- lift (iter logical_monitors) ;;
      for_each (fun monitor => print [Shown monitor]) logical_items ;;
      print [Lit "PROPS"] ;;
      props <- lift (iter properties) ;;
      for_each (fun prop =>
                  v <- lift (getitem properties prop) ;;
                  line <- lift (percent "%s: %s" (VSeq Tuple [prop; v])) ;;
                  print [line])
               props
  | _ => lift (Raise ValueError)
  end.

(** The one logical monitor [apply_monitors_config] writes down. *)
Definition fixed_monitors : value :=
  let scale := VDouble 1 in
  let transform := VInt 0 in
  let is_primary := VBool true in
  VSeq List
    [ VSeq List
        [ VInt 0; VInt 0; scale; transform; is_primary;
          VSeq List
            [ VSeq List
                [ VStr "DP-1"; VStr "1920x1200@59.950172424316406";
                  VDict [] ] ] ] ].

Definition apply_monitors_config : M unit :=
  let monitors := fixed_monitors in
  getattr "interface" interface ;;
  serial <- getattr "config_serial" config_serial ;;
  remote (CallApplyMonitorsConfig serial (VInt 1) monitors (VDict []))
         (ApplyMonitorsConfig serial (VInt 1) monitors (VDict [])) ;;
  ret tt.

(** The three builders: each binds a local [monitors] and falls off the
    end of its body. *)
Definition single_mode
  (x_position y_position scale transform is_primary monitor_list : value)
  : M frame :=
  let monitors :=
    VSeq List
      [ VSeq List
          [ x_position; y_position; scale; transform; is_primary;
            monitor_list ] ] in
  ret {| monitors := monitors; returned := VNone |}.

Definition extand_mode
  (x_position y_position scale transform is_primary monitor_list : value)
  : M frame :=
  let monitors :=
    VSeq List
      [ VSeq List
          [ x_position; y_position; scale; transform; is_primary;
            monitor_list ] ] in
  ret {| monitors := monitors; returned := VNone |}.

Definition clone_mode
  (x_position y_position scale transform is_primary monitor_list : value)
  : M frame :=
  let monitors :=
    VSeq List
      [ VSeq List
          [ x_position; y_position; scale; transform; is_primary;
            monitor_list ] ] in
  ret {| monitors := monitors; returned := VNone |}.

(** The methods a caller can invoke on an instance once it exists. *)
Inductive operation : Type :=
| OpSingle (x y scale transform is_primary monitor_list : value)
| OpExtand (x y scale transform is_primary monitor_list : value)
| OpClone (x y scale transform is_primary monitor_list : value)
| OpPrintCurrentState
| OpPrintMonitorConfig (monitor : value)
| OpAvailableModes (monitor : value)
| OpApply
| OpSerial
| OpCrtcs
| OpOutputs
| OpModes
| OpMaxScreenWidth
| OpMaxScreenHeight.

Definition perform (op : operation) : M value :=
  match op with
  | OpSingle x y sc tr pr ml =>
      f <- single_mode x y sc tr pr ml ;; ret (returned f)
  | OpExtand x y sc tr pr ml =>
      f <- extand_mode x y sc tr pr ml ;; ret (returned f)
  | OpClone x y sc tr pr ml =>
      f <- clone_mode x y sc tr pr ml ;; ret (returned f)
  | OpPrintCurrentState => print_current_state ;; ret VNone
  | OpPrintMonitorConfig monitor => print_monitor_config monitor ;; ret VNone
  | OpAvailableModes monitor => lift (available_modes monitor)
  | OpApply => apply_monitors_config ;; ret VNone
  | OpSerial => serial
  | OpCrtcs => crtcs
  | OpOutputs => outputs
  | OpModes => modes
  | OpMaxScreenWidth => max_screen_width
  | OpMaxScreenHeight => max_screen_height
  end.

(** A run of operations, one after the other, whatever each returns or
    raises (the caller may catch). *)
Fixpoint perform_all (ops : list operation) (w : world) : world :=
  match ops with
  | [] => w
  | op :: rest => perform_all rest (after (perform op) w)
  end.

(** A computation leaves a component of the world as it found it. *)
Definition preserves {X A} (proj : world -> X) (m : M A) : Prop :=
  forall w, proj (snd (m w)) = proj w.

(** The remote service and the traffic to it. *)
Definition traffic (w : world) : Bus * list call := (bus w, calls w).

(** The script under [if __name__ == "__main__"]: a client is built and
    the state it fetched is printed. *)
Definition main : M unit := new ;; print_current_state.

Definition is_apply (op : operation) : bool :=
  match op with
  | OpApply => true
  | _ => false
  end.

Definition is_print (op : operation) : bool :=
  match op with
  | OpPrintCurrentState | OpPrintMonitorConfig _ => true
  | _ => false
  end.

(** The lines [print_monitor_config] has for one mode: one line when the
    mode is the current one, none otherwise. *)
Definition current_lines (mode : value) : list (list text) :=
  let d_mode := DisplayMode.__init__ mode in
  match DisplayMode.is_current d_mode, DisplayMode.__str__ d_mode with
  | Ok true, Ok shown => [[Lit "Current: "; shown]]
  | _, _ => []
  end.

(** The world after some more lines were printed. *)
Definition printed (lines : list (list text)) (w : world) : world :=
  {| bus := bus w; calls := calls w; stdout := stdout w ++ lines;
     self := self w |}.

(** A mode [print_monitor_config] gets through: the test for the current
    mode returns, and a current mode can be shown. *)
Definition printable (mode : value) : bool :=
  let d_mode := DisplayMode.__init__ mode in
  match DisplayMode.is_current d_mode with
  | Ok true => is_ok (DisplayMode.__str__ d_mode)
  | Ok false => true
  | Raise _ => false
  end.

(** What [print_monitor_config] prints for a monitor. *)
Definition config_lines (joined : string) (mode_items : list value)
  (props : value) : list (list text) :=
  [[Lit "Print Monitor Config"]; [Lit joined]]
  ++ flat_map current_lines mode_items
  ++ [[Shown props]].

(** A monitor [print_current_state] gets through, and the lines it has for
    it: the list of its modes, then its configuration. *)
Definition monitor_printout (monitor : value) (lines : list (list text))
  : Prop :=
  exists monitor_info modes props mode_list joined mode_items,
    available_modes monitor = Ok mode_list /\
    unpack 3 monitor = Ok [monitor_info; modes; props] /\
    join " " monitor_info = Ok joined /\
    iter modes = Ok mode_items /\
    forallb printable mode_items = true /\
    lines =
      [[Lit "Available Monitor Modes"]; [Shown mode_list]]
      ++ config_lines joined mode_items props.

End Client.

End DisplayConfig.

(** ** What the specification expects of a planner *)

(** The wire shape of a logical monitor,
    [(x, y, scale, transform, primary, [(connector, mode_id, properties)])]. *)
Definition assignment_shaped (v : value) : bool :=
  match v with
  | VSeq _ [VStr _; VStr _; VDict _] => true
  | _ => false
  end.

Definition placement_shaped (v : value) : bool :=
  match v with
  | VSeq _ [VInt _; VInt _; VDouble _; VInt _; VBool _; VSeq _ l] =>
      forallb assignment_shaped l
  | _ => false
  end.

(** One output of a selection, as the apply call names it. *)
Definition assignment (connector mode_id : string) : value :=
  VSeq List [VStr connector; VStr mode_id; VDict []].

(** The placement the specification gives a Single arrangement: the origin,
    the preferred scale, no transform, primary. *)
Definition expected_single (preferred_scale : Q) (chosen : value) : value :=
  VSeq List
    [ VSeq List
        [ VInt 0; VInt 0; VDouble preferred_scale; VInt 0; VBool true;
          VSeq List [chosen] ] ].

(** The placements the specification gives an Extend arrangement of two
    outputs of widths [wa] and scales [sa], [sb]: the second one starts
    where the first one ends. *)
Definition expected_extend (wa : Z) (sa sb : Q) (a b : value) : value :=
  VSeq List
    [ VSeq List
        [ VInt 0; VInt 0; VDouble sa; VInt 0; VBool true; VSeq List [a] ];
      VSeq List
        [ VInt wa; VInt 0; VDouble sb; VInt 0; VBool false; VSeq List [b] ] ].

(** ** Sample services and data *)

Module Sample.

(** A service that plays back a script of answers, one per call, whatever
    the call; a call past the end of the script gets no reply. *)
Definition pop (script : list (result value))
  : result value * list (result value) :=
  match script with
  | [] => (Raise (DBusException "org.freedesktop.DBus.Error.NoReply"), [])
  | r :: rest => (r, rest)
  end.

Definition scripted : MutterService :=
  {| Bus := list (result value);
     GetResources := pop;
     GetCurrentState := pop;
     ApplyMonitorsConfig := fun _ _ _ _ => pop |}.

(** [str] on strings; other values are not rendered here. *)
Definition str_of (v : value) : string :=
  match v with
  | VStr s => s
  | _ => "<object>"
  end.

Lemma str_of_VStr : forall s, str_of (VStr s) = s.
Proof. reflexivity. Qed.

Definition builtins : Builtins :=
  {| str := str_of; str_of_str := str_of_VStr |}.

(** A mode record of the current-state listing:
    [(id, width, height, refresh, preferred scale, scales, properties)]. *)
Definition mode (id : string) (w h : Z) (current : bool) : value :=
  VSeq Tuple
    [ VStr id; VInt w; VInt h; VDouble (60 # 1); VDouble 1;
      VSeq List [VDouble 1; VDouble 2];
      VDict (if current then [("is-current", VBool true)] else []) ].

Definition monitor (connector : string) (modes : list value) : value :=
  VSeq Tuple
    [ VSeq Tuple [VStr connector; VStr "VND"; VStr "Panel"; VStr "0x01"];
      VSeq List modes;
      VDict [] ].

Definition dp1 : value :=
  monitor "DP-1"
    [ mode "1920x1200@60" 1920 1200 true; mode "1280x720@60" 1280 720 false ].

(** The reply of [GetResources] with the given serial (nothing connected,
    as under Wayland, where the legacy listing is empty). *)
Definition resources_reply (serial : Z) : value :=
  VSeq Tuple
    [ VInt serial; VSeq List []; VSeq List []; VSeq List []; VInt 16384;
      VInt 16384 ].

(** The reply of [GetCurrentState] with the given serial. *)
Definition state_reply (serial : Z) : value :=
  VSeq Tuple
    [ VInt serial; VSeq List [dp1];
      VSeq List
        [ VSeq Tuple
            [ VInt 0; VInt 0; VDouble 1; VInt 0; VBool true;
              VSeq List [VSeq Tuple [VStr "DP-1"; VStr "VND"; VStr "Panel";
                                     VStr "0x01"]];
              VDict [] ] ];
      VDict [("layout-mode", VInt 1)] ].

(** A world before any client exists, facing the scripted service. *)
Definition start (script : list (result value))
  : @DisplayConfig.world scripted :=
  @DisplayConfig.Build_world scripted script [] [] DisplayConfig.fresh.

(** Two reads between which the configuration changed: serial 1, then 2. *)
Definition racing : @DisplayConfig.world scripted :=
  start [Ok (resources_reply 1); Ok (state_reply 2)].

(** Two reads of one configuration, and an accepted apply. *)
Definition quiet : @DisplayConfig.world scripted :=
  start [Ok (resources_reply 7); Ok (state_reply 7); Ok (VSeq Tuple [])].

(** Outputs A and B of the Extend example, and two outputs that share no
    resolution. *)
Definition output_a : value := assignment "DP-1" "1920x1200@60".
Definition output_b : value := assignment "HDMI-1" "1920x1200@60".
Definition output_c : value := assignment "HDMI-1" "1280x720@60".

End Sample.

(** * Properties *)

Import DisplayConfig.

(** ** Subscripts *)

Lemma seq_at_of_nat {A} (l : list A) (i : nat) :
  seq_at l (Z.of_nat i) =
  match nth_error l i with
  | Some a => Ok a
  | None => Raise IndexError
  end.
Proof.
  unfold seq_at.
  assert (Hneg : (Z.of_nat i <? 0) = false) by (apply Z.ltb_ge; lia).
  rewrite Hneg, Nat2Z.id.
  assert (Hlo : (0 <=? Z.of_nat i) = true) by (apply Z.leb_le; lia).
  rewrite Hlo; cbn [andb].
  destruct (nth_error l i) eqn:Hnth.
  - assert (Hlt : (i < List.length l)%nat)
      by (apply nth_error_Some; congruence).
    assert (Hhi : (Z.of_nat i <? Z.of_nat (List.length l)) = true)
      by (apply Z.ltb_lt; lia).
    rewrite Hhi; reflexivity.
  - apply nth_error_None in Hnth.
    assert (Hhi : (Z.of_nat i <? Z.of_nat (List.length l)) = false)
      by (apply Z.ltb_ge; lia).
    rewrite Hhi; reflexivity.
Qed.

Lemma getitem_seq_nat (k : seq_kind) (l : list value) (i : nat) :
  getitem (VSeq k l) (VInt (Z.of_nat i)) =
  match nth_error l i with
  | Some a => Ok a
  | None => Raise IndexError
  end.
Proof. cbn [getitem as_index]. apply seq_at_of_nat. Qed.

(** ** Frame lemmas for method bodies *)

Section Frames.

Context {service : MutterService}.
Context {X : Type} (proj : world -> X).

Lemma preserves_ret {A} (a : A) : preserves proj (ret a).
Proof. intro w; reflexivity. Qed.

Lemma preserves_lift {A} (r : result A) : preserves proj (lift r).
Proof. intro w; reflexivity. Qed.

Lemma preserves_getattr {A} (name : string) (field : attrs -> option A) :
  preserves proj (getattr name field).
Proof. intro w; unfold getattr; destruct (field (self w)); reflexivity. Qed.

Lemma preserves_bind {A B} (m : M A) (k : A -> M B) :
  preserves proj m -> (forall a, preserves proj (k a)) ->
  preserves proj (bind m k).
Proof.
  intros Hm Hk w. unfold bind.
  specialize (Hm w). destruct (m w) as [[a | e] w']; cbn [snd] in *.
  - rewrite Hk. exact Hm.
  - exact Hm.
Qed.

Lemma preserves_for_each (body : value -> M unit) (items : list value) :
  (forall item, preserves proj (body item)) ->
  preserves proj (for_each body items).
Proof.
  intro Hbody. induction items as [| item rest IH]; cbn [for_each].
  - apply preserves_ret.
  - apply preserves_bind; [apply Hbody | intros _; exact IH].
Qed.

End Frames.

Section SelfFrames.

Context {service : MutterService} {builtins : Builtins}.

Lemma print_keeps_self (line : list text) : preserves self (print line).
Proof. intro w; reflexivity. Qed.

Lemma print_keeps_traffic (line : list text) : preserves traffic (print line).
Proof. intro w; reflexivity. Qed.

Lemma remote_keeps_self (c : call) (method : Bus -> result value * Bus) :
  preserves self (remote c method).
Proof. intro w; unfold remote; destruct (method (bus w)); reflexivity. Qed.

End SelfFrames.

Ltac frame_step :=
  first
    [ apply preserves_ret
    | apply preserves_lift
    | apply preserves_getattr
    | apply print_keeps_self
    | apply print_keeps_traffic
    | apply remote_keeps_self
    | apply preserves_for_each; intro
    | apply preserves_bind; [ | intro ]
    | match goal with
      | |- preserves _ (match ?x with _ => _ end) => destruct x
      end ].

Ltac frame := repeat (cbv beta; frame_step).

Section Invariance.

Context {service : MutterService} {builtins : Builtins}.

Lemma print_monitor_config_keeps_self (monitor : value) :
  preserves self (print_monitor_config monitor).
Proof. unfold print_monitor_config. frame. Qed.

Lemma print_current_state_keeps_self : preserves self print_current_state.
Proof.
  unfold print_current_state. frame.
Qed.

Lemma apply_monitors_config_keeps_self :
  preserves self apply_monitors_config.
Proof. unfold apply_monitors_config. frame. Qed.

Lemma perform_keeps_self (op : operation) : preserves self (perform op).
Proof.
  destruct op; cbn [perform];
    unfold single_mode, extand_mode, clone_mode, serial, crtcs, outputs,
      modes, max_screen_width, max_screen_height;
    frame.
Qed.

Lemma perform_all_keeps_self (ops : list operation) (w : world) :
  self (perform_all ops w) = self w.
Proof.
  revert w. induction ops as [| op rest IH]; intro w; cbn [perform_all].
  - reflexivity.
  - rewrite IH. apply perform_keeps_self.
Qed.

End Invariance.

(** ** The fetch *)

Section Fetch.

Context {service : MutterService}.

(** A fetch whose two reads are answered, the second with something that
    has a first element: the world it leaves. *)
Lemma new_answered (w : world) (res cur s : value) (b1 b2 : Bus) :
  GetResources (bus w) = (Ok res, b1) ->
  GetCurrentState b1 = (Ok cur, b2) ->
  getitem cur (VInt 0) = Ok s ->
  new w =
  (Ok tt,
   {| bus := b2;
      calls := (calls w ++ [CallGetResources]) ++ [CallGetCurrentState];
      stdout := stdout w;
      self :=
        {| interface :=
             Some {| bus_name := namespace; object_path := dbus_path;
                     dbus_interface := namespace |};
           resources := Some res;
           current_state := Some cur;
           config_serial := Some s |} |}).
Proof.
  intros Hres Hcur Hs.
  unfold new, __init__, bind, setattr, getattr, remote, lift, with_self.
  cbn. rewrite Hres. cbn. rewrite Hcur. cbn. rewrite Hs. reflexivity.
Qed.

(** A fetch that returns had both reads answered. *)
Lemma new_inv (w : world) :
  outcome new w = Ok tt ->
  exists res cur s b1 b2,
    GetResources (bus w) = (Ok res, b1) /\
    GetCurrentState b1 = (Ok cur, b2) /\
    getitem cur (VInt 0) = Ok s.
Proof.
  unfold outcome, new, __init__, bind, setattr, getattr, remote, lift,
    with_self.
  cbn.
  destruct (GetResources (bus w)) as [[res | e] b1] eqn:Hres; cbn;
    [ | discriminate ].
  destruct (GetCurrentState b1) as [[cur | e] b2] eqn:Hcur; cbn;
    [ | discriminate ].
  destruct (getitem cur (VInt 0)) as [s | e] eqn:Hs; cbn; [ | discriminate ].
  intros _. exists res, cur, s, b1, b2. auto.
Qed.

(** Once the session bus is reached, whatever the service does, a fetch
    makes one read or two, never a third: there is no second attempt. *)
Lemma new_never_retries (w : world) :
  calls (after new w) = calls w ++ [CallGetResources] \/
  calls (after new w) = calls w ++ [CallGetResources; CallGetCurrentState].
Proof.
  unfold after, new, __init__, bind, setattr, getattr, remote, lift,
    with_self.
  cbn.
  destruct (GetResources (bus w)) as [[res | e] b1]; cbn; [ | now left ].
  right.
  destruct (GetCurrentState b1) as [[cur | e] b2]; cbn;
    [ | now rewrite <- app_assoc ].
  destruct (getitem cur (VInt 0)); cbn; now rewrite <- app_assoc.
Qed.

(** C4, as the code has it: a fetch whose two reads are answered makes
    exactly two read calls, [GetResources] then [GetCurrentState], and
    returns; the serial it keeps is the first element of the
    current-state reply.  Nothing is asked of the serial of the legacy
    listing: the two serials are not compared, there is no retry and no
    failure when they differ. *)
Theorem fetch_reads_twice_and_keeps_state_serial
  (w : world) (res cur s : value) (b1 b2 : Bus) :
  GetResources (bus w) = (Ok res, b1) ->
  GetCurrentState b1 = (Ok cur, b2) ->
  getitem cur (VInt 0) = Ok s ->
  outcome new w = Ok tt /\
  calls (after new w) = calls w ++ [CallGetResources; CallGetCurrentState] /\
  filter is_read (calls (after new w)) =
    filter is_read (calls w) ++ [CallGetResources; CallGetCurrentState] /\
  snapshot (self (after new w)) = (Some res, Some cur, Some s).
Proof.
  intros Hres Hcur Hs.
  unfold outcome, after. rewrite (new_answered w Hres Hcur Hs). cbn.
  rewrite <- app_assoc. cbn.
  repeat split. rewrite filter_app. reflexivity.
Qed.

End Fetch.

(** ** The apply call *)

Section Apply.

Context {service : MutterService} {builtins : Builtins}.

(** The one call an apply makes, on an instance whose attributes are set. *)
Lemma apply_call (w : world) (px : proxy) (s : value) :
  interface (self w) = Some px ->
  config_serial (self w) = Some s ->
  calls (after apply_monitors_config w) =
  calls w ++ [CallApplyMonitorsConfig s (VInt 1) fixed_monitors (VDict [])].
Proof.
  intros Hi Hs.
  unfold after, apply_monitors_config, bind, getattr, remote, ret.
  rewrite Hi, Hs.
  destruct (ApplyMonitorsConfig s (VInt 1) fixed_monitors (VDict []) (bus w))
    as [[r | e] b]; reflexivity.
Qed.

(** C5: after a fetch that returned, and whatever operations were run on
    the instance since, an apply makes exactly one call; it carries the
    serial the fetch took from its current-state read, a method that is
    one of the three codes 0 (verify), 1 (temporary), 2 (persistent), and
    a list of logical monitors each of the shape
    [(x, y, scale, transform, primary, [(connector, mode_id, properties)])]. *)
Theorem apply_submits_the_captured_serial
  (w0 : world) (ops : list operation) :
  outcome new w0 = Ok tt ->
  let w1 := after new w0 in
  let w2 := perform_all ops w1 in
  exists cur s method monitors properties items,
    current_state (self w1) = Some cur /\
    getitem cur (VInt 0) = Ok s /\
    config_serial (self w1) = Some s /\
    calls (after apply_monitors_config w2) =
      calls w2 ++ [CallApplyMonitorsConfig s (VInt method) monitors properties] /\
    (method = VERIFY_METHOD \/ method = TEMPORARY_METHOD \/
     method = PERSISTENT_METHOD) /\
    (VERIFY_METHOD, TEMPORARY_METHOD, PERSISTENT_METHOD) = (0, 1, 2) /\
    iter monitors = Ok items /\
    forallb placement_shaped items = true.
Proof.
  intros Hnew w1 w2.
  destruct (new_inv w0 Hnew) as (res & cur & s & b1 & b2 & Hres & Hcur & Hs).
  pose proof (new_answered w0 Hres Hcur Hs) as Hrun.
  assert (Hself : self w2 = self w1) by apply perform_all_keeps_self.
  assert (Hw1 : self w1 =
                {| interface :=
                     Some {| bus_name := namespace; object_path := dbus_path;
                             dbus_interface := namespace |};
                   resources := Some res;
                   current_state := Some cur;
                   config_serial := Some s |}).
  { unfold w1, after. rewrite Hrun. reflexivity. }
  exists cur, s, 1, fixed_monitors, (VDict []).
  eexists.
  repeat apply conj.
  - rewrite Hw1; reflexivity.
  - exact Hs.
  - rewrite Hw1; reflexivity.
  - eapply apply_call; rewrite Hself, Hw1; reflexivity.
  - right; left; reflexivity.
  - reflexivity.
  - reflexivity.
  - reflexivity.
Qed.

(** C10: an apply reads one thing of the instance, the serial kept at the
    fetch.  Whatever the listings hold and whatever was planned, the call
    is the same: method 1 (temporary), no properties, and one logical
    monitor at (0,0), scale 1.0, transform 0, primary, showing connector
    DP-1 in mode 1920x1200@59.950172424316406. *)
Theorem apply_submits_a_fixed_configuration
  (w : world) (px : proxy) (s : value) :
  interface (self w) = Some px ->
  config_serial (self w) = Some s ->
  calls (after apply_monitors_config w) =
  calls w ++
  [ CallApplyMonitorsConfig s (VInt TEMPORARY_METHOD)
      (VSeq List
         [ VSeq List
             [ VInt 0; VInt 0; VDouble 1; VInt 0; VBool true;
               VSeq List
                 [ VSeq List
                     [ VStr "DP-1"; VStr "1920x1200@59.950172424316406";
                       VDict [] ] ] ] ])
      (VDict []) ].
Proof.
  intros Hi Hs. rewrite (apply_call w Hi Hs). reflexivity.
Qed.

(** C7: no method other than the constructor assigns an attribute.  After
    any run of plannings, printings, mode listings, applies and property
    reads, the legacy listing, the current-state listing and the serial of
    the instance are the ones it had. *)
Theorem operations_leave_the_snapshot_unchanged
  (ops : list operation) (w : world) :
  snapshot (self (perform_all ops w)) = snapshot (self w) /\
  resources (self (perform_all ops w)) = resources (self w) /\
  current_state (self (perform_all ops w)) = current_state (self w) /\
  config_serial (self (perform_all ops w)) = config_serial (self w).
Proof.
  rewrite perform_all_keeps_self. repeat split.
Qed.

End Apply.

(** ** The builders *)

Section Builders.

Context {service : MutterService}.

Variables x_position y_position scale transform is_primary monitor_list
  : value.

(** C1, as the code has it: [single_mode] builds exactly one placement
    record, and its six fields are the six arguments, in order and
    unchanged; called with the origin, a scale, no transform, primary and
    the chosen output, the record is the one the specification gives. *)
Theorem single_mode_builds_the_given_record (w : world) :
  exists f p,
    outcome (single_mode x_position y_position scale transform is_primary
               monitor_list) w = Ok f /\
    iter (monitors f) = Ok [p] /\
    map (getitem p) [VInt 0; VInt 1; VInt 2; VInt 3; VInt 4; VInt 5] =
      map Ok [x_position; y_position; scale; transform; is_primary;
              monitor_list] /\
    len p = Ok (VInt 6) /\
    forall (preferred : Q) (chosen : value),
    exists f0,
      outcome (single_mode (VInt 0) (VInt 0) (VDouble preferred) (VInt 0)
                 (VBool true) (VSeq List [chosen])) w = Ok f0 /\
      monitors f0 = expected_single preferred chosen.
Proof.
  do 2 eexists. repeat apply conj; try reflexivity.
  intros preferred chosen. eexists. split; reflexivity.
Qed.

(** C2, as the code has it: [extand_mode] builds exactly one placement
    record however many outputs [monitor_list] names; its position is the
    [x_position] and [y_position] it was given, and so are the other
    fields.  No offset is computed. *)
Theorem extand_mode_builds_one_record (w : world) :
  exists f p,
    outcome (extand_mode x_position y_position scale transform is_primary
               monitor_list) w = Ok f /\
    iter (monitors f) = Ok [p] /\
    len (monitors f) = Ok (VInt 1) /\
    getitem p (VInt 0) = Ok x_position /\
    getitem p (VInt 1) = Ok y_position /\
    p = VSeq List [x_position; y_position; scale; transform; is_primary;
                   monitor_list].
Proof.
  do 2 eexists. repeat split.
Qed.

(** C3, as the code has it: [clone_mode] never fails; it builds exactly
    one placement record, made of its six arguments in order and
    unchanged, so that any two placements it produced have the same
    position, scale and transform.  The mode ids are the ones
    [monitor_list] came with: nothing is checked or chosen. *)
Theorem clone_mode_never_fails (w : world) :
  exists f ps,
    outcome (clone_mode x_position y_position scale transform is_primary
               monitor_list) w = Ok f /\
    (forall e,
       outcome (clone_mode x_position y_position scale transform is_primary
                  monitor_list) w <> Raise e) /\
    monitors f = VSeq List ps /\
    iter (monitors f) = Ok ps /\
    ps = [ VSeq List
             [ x_position; y_position; scale; transform; is_primary;
               monitor_list ] ] /\
    List.length ps = 1%nat /\
    Forall
      (fun p =>
         Forall
           (fun q =>
              map (getitem p) [VInt 0; VInt 1; VInt 2; VInt 3] =
              map (getitem q) [VInt 0; VInt 1; VInt 2; VInt 3])
           ps /\
         map (getitem p) [VInt 0; VInt 1; VInt 2; VInt 3; VInt 4; VInt 5] =
           map Ok [x_position; y_position; scale; transform; is_primary;
                   monitor_list])
      ps.
Proof.
  do 2 eexists. repeat apply conj; try reflexivity.
  - intros e H. discriminate H.
  - repeat constructor.
Qed.

(** C9: each builder binds its placement list to a local and returns
    [None]; the world it leaves is the world it found: no call went out,
    the service has not moved, nothing was printed, no attribute was
    assigned. *)
Theorem builders_never_submit (w : world) :
  Forall
    (fun builder : value -> value -> value -> value -> value -> value ->
                   M frame =>
       let m := builder x_position y_position scale transform is_primary
                  monitor_list in
       after m w = w /\
       calls (after m w) = calls w /\
       bus (after m w) = bus w /\
       exists f,
         outcome m w = Ok f /\
         returned f = VNone /\
         monitors f =
           VSeq List
             [ VSeq List
                 [ x_position; y_position; scale; transform; is_primary;
                   monitor_list ] ])
    [single_mode; extand_mode; clone_mode].
Proof.
  repeat constructor; eexists; repeat split.
Qed.

End Builders.

(** ** Decoding a mode record *)

(** C6, as the code has it: building a [DisplayMode] stores the record
    and checks nothing.  Each accessor reads one fixed position when it is
    called; on a sequence it returns the item there, and raises
    [IndexError] exactly when the record has no such position. *)
Theorem accessor_reads_its_position
  (k : seq_kind) (l : list value) (i : nat)
  (accessor : DisplayMode.t -> result value) :
  In (i, accessor) DisplayMode.accessors ->
  DisplayMode.mode_info (DisplayMode.__init__ (VSeq k l)) = VSeq k l /\
  accessor (DisplayMode.__init__ (VSeq k l)) =
    match nth_error l i with
    | Some field => Ok field
    | None => Raise IndexError
    end /\
  (is_ok (accessor (DisplayMode.__init__ (VSeq k l))) = true <->
   (i < List.length l)%nat).
Proof.
  intro Hin.
  assert (Hacc : accessor (DisplayMode.__init__ (VSeq k l)) =
                 getitem (VSeq k l) (VInt (Z.of_nat i))).
  { cbn [DisplayMode.accessors In] in Hin.
    repeat (destruct Hin as [Hin | Hin];
            [ injection Hin as <- <-; reflexivity | ]).
    contradiction. }
  rewrite Hacc, getitem_seq_nat.
  split; [reflexivity | split; [reflexivity | ]].
  rewrite <- nth_error_Some.
  destruct (nth_error l i); cbn [is_ok]; split; congruence.
Qed.

(** ** Listing the modes of a monitor *)

Section AvailableModes.

Context {builtins : Builtins}.

Lemma rmap_mode_ids (modes : list value) (ids : list string) :
  Forall2 (fun mode id => getitem mode (VInt 0) = Ok (VStr id)) modes ids ->
  rmap (fun mode =>
          rbind (getitem mode (VInt 0)) (fun id => Ok (VStr (str id))))
       modes =
  Ok (map VStr ids).
Proof.
  induction 1 as [| mode id modes ids Hid _ IH]; cbn [rmap map].
  - reflexivity.
  - rewrite Hid. cbn [rbind]. rewrite IH. cbn [rbind].
    rewrite str_of_str. reflexivity.
Qed.

(** C8: for a monitor record whose second field lists its modes, each
    mode starting with its id, [available_modes] returns the ids of the
    modes, one per mode and in the order of the record: nothing is
    dropped, repeated or moved. *)
Theorem available_modes_lists_every_mode_id
  (monitor : value) (k : seq_kind) (modes : list value)
  (ids : list string) :
  getitem monitor (VInt 1) = Ok (VSeq k modes) ->
  Forall2 (fun mode id => getitem mode (VInt 0) = Ok (VStr id)) modes ids ->
  exists mode_list,
    available_modes monitor = Ok (VSeq List mode_list) /\
    mode_list = map VStr ids /\
    List.length mode_list = List.length modes /\
    Forall2 (fun mode shown => getitem mode (VInt 0) = Ok shown)
            modes mode_list.
Proof.
  intros Hmodes Hids.
  exists (map VStr ids). split; [ | split; [ | split ] ].
  - unfold available_modes. rewrite Hmodes. cbn [rbind iter].
    rewrite (rmap_mode_ids Hids). reflexivity.
  - reflexivity.
  - rewrite length_map. clear Hmodes.
    induction Hids; cbn [List.length]; congruence.
  - clear Hmodes. induction Hids; cbn [map]; constructor; assumption.
Qed.

End AvailableModes.

(** * Instances on the sample data *)

(** A fetch against a quiet service. *)
Lemma fetch_reads_twice_witness :
  @outcome Sample.scripted unit new Sample.quiet = Ok tt /\
  calls (after new Sample.quiet) = [CallGetResources; CallGetCurrentState] /\
  filter is_read (calls (after new Sample.quiet)) =
    [CallGetResources; CallGetCurrentState] /\
  snapshot (self (after new Sample.quiet)) =
    (Some (Sample.resources_reply 7), Some (Sample.state_reply 7),
     Some (VInt 7)).
Proof.
  apply (@fetch_reads_twice_and_keeps_state_serial Sample.scripted
           Sample.quiet (Sample.resources_reply 7) (Sample.state_reply 7)
           (VInt 7) [Ok (Sample.state_reply 7); Ok (VSeq Tuple [])]
           [Ok (VSeq Tuple [])]);
    reflexivity.
Defined.

(** C4 as stated fails: the legacy listing says serial 1, the current state
    says serial 2, and the fetch returns all the same after its two reads,
    with no third call; the instance then reports serial 1 through its
    [serial] property and holds serial 2 for the apply. *)
Lemma diverging_serials_are_not_noticed :
  getitem (Sample.resources_reply 1) (VInt 0) = Ok (VInt 1) /\
  getitem (Sample.state_reply 2) (VInt 0) = Ok (VInt 2) /\
  @outcome Sample.scripted unit new Sample.racing = Ok tt /\
  calls (after new Sample.racing) = [CallGetResources; CallGetCurrentState] /\
  outcome serial (after new Sample.racing) = Ok (VInt 1) /\
  config_serial (self (after new Sample.racing)) = Some (VInt 2).
Proof. repeat apply conj; reflexivity. Qed.

(** A fetch, some printing and reading, then an apply. *)
Lemma apply_submits_the_captured_serial_witness :
  @outcome Sample.scripted unit new Sample.quiet = Ok tt /\
  exists method monitors properties,
    calls (after apply_monitors_config
             (@perform_all Sample.scripted Sample.builtins
                [OpPrintCurrentState; OpSerial] (after new Sample.quiet))) =
    [ CallGetResources; CallGetCurrentState;
      CallApplyMonitorsConfig (VInt 7) (VInt method) monitors properties ].
Proof.
  split; [reflexivity | ].
  destruct (@apply_submits_the_captured_serial Sample.scripted Sample.builtins
              Sample.quiet [OpPrintCurrentState; OpSerial] eq_refl)
    as (cur & s & method & monitors & properties & items
        & Hcur & Hs & _ & Hcalls & _).
  exists method, monitors, properties.
  rewrite Hcalls.
  injection Hcur as <-. injection Hs as <-. reflexivity.
Defined.

Lemma apply_submits_a_fixed_configuration_witness :
  calls (@after Sample.scripted unit apply_monitors_config
           (after new Sample.quiet)) =
  [ CallGetResources; CallGetCurrentState;
    CallApplyMonitorsConfig (VInt 7) (VInt 1)
      (VSeq List
         [ VSeq List
             [ VInt 0; VInt 0; VDouble 1; VInt 0; VBool true;
               VSeq List
                 [ VSeq List
                     [ VStr "DP-1"; VStr "1920x1200@59.950172424316406";
                       VDict [] ] ] ] ])
      (VDict []) ].
Proof.
  apply (@apply_submits_a_fixed_configuration Sample.scripted
           (after new Sample.quiet)
           {| bus_name := namespace; object_path := dbus_path;
              dbus_interface := namespace |}
           (VInt 7));
    reflexivity.
Defined.

(** C1 as stated fails: asked for an output at (1920, 1080), scale 2,
    rotated and not primary, [single_mode] writes exactly that down; the
    record is not the one at the origin, for any preferred scale. *)
Lemma single_mode_keeps_the_given_position :
  exists f,
    @outcome Sample.scripted frame
      (single_mode (VInt 1920) (VInt 1080) (VDouble 2) (VInt 1) (VBool false)
         (VSeq List [Sample.output_a]))
      Sample.quiet = Ok f /\
    monitors f =
      VSeq List
        [ VSeq List
            [ VInt 1920; VInt 1080; VDouble 2; VInt 1; VBool false;
              VSeq List [Sample.output_a] ] ] /\
    (forall preferred,
       monitors f <> expected_single preferred Sample.output_a) /\
    returned f = VNone.
Proof.
  eexists. repeat apply conj; try reflexivity.
  intros preferred H. discriminate H.
Qed.

(** C2 as stated fails: for A (1920 wide, scale 1.0) then B (scale 2.0),
    [extand_mode] builds one placement holding both outputs, not A at (0,0)
    and B at (1920,0). *)
Lemma extand_mode_does_not_lay_out :
  exists f,
    @outcome Sample.scripted frame
      (extand_mode (VInt 0) (VInt 0) (VDouble 1) (VInt 0) (VBool true)
         (VSeq List [Sample.output_a; Sample.output_b]))
      Sample.quiet = Ok f /\
    len (monitors f) = Ok (VInt 1) /\
    len (expected_extend 1920 1 2 Sample.output_a Sample.output_b) =
      Ok (VInt 2) /\
    monitors f <> expected_extend 1920 1 2 Sample.output_a Sample.output_b.
Proof.
  eexists. repeat apply conj; try reflexivity.
  intro H. discriminate H.
Qed.

(** C3 as stated fails: two outputs whose modes have no resolution in
    common; [clone_mode] does not fail, and the plan it builds puts the two
    outputs, with their two different mode ids, in one logical monitor. *)
Lemma clone_mode_accepts_unrelated_modes :
  Sample.output_a = assignment "DP-1" "1920x1200@60" /\
  Sample.output_c = assignment "HDMI-1" "1280x720@60" /\
  (forall e,
     @outcome Sample.scripted frame
       (clone_mode (VInt 0) (VInt 0) (VDouble 1) (VInt 0) (VBool true)
          (VSeq List [Sample.output_a; Sample.output_c]))
       Sample.quiet <> Raise e) /\
  exists f,
    @outcome Sample.scripted frame
      (clone_mode (VInt 0) (VInt 0) (VDouble 1) (VInt 0) (VBool true)
         (VSeq List [Sample.output_a; Sample.output_c]))
      Sample.quiet = Ok f /\
    monitors f =
      VSeq List
        [ VSeq List
            [ VInt 0; VInt 0; VDouble 1; VInt 0; VBool true;
              VSeq List [Sample.output_a; Sample.output_c] ] ].
Proof.
  repeat apply conj; try reflexivity.
  - intros e H. discriminate H.
  - eexists. split; reflexivity.
Qed.

Lemma accessor_reads_its_position_witness :
  In (1%nat, DisplayMode.width) DisplayMode.accessors /\
  DisplayMode.width
    (DisplayMode.__init__ (Sample.mode "1920x1200@60" 1920 1200 true)) =
  Ok (VInt 1920).
Proof.
  split.
  - right; left; reflexivity.
  - apply (@accessor_reads_its_position Tuple
             [ VStr "1920x1200@60"; VInt 1920; VInt 1200; VDouble (60 # 1);
               VDouble 1; VSeq List [VDouble 1; VDouble 2];
               VDict [("is-current", VBool true)] ]
             1%nat DisplayMode.width).
    right; left; reflexivity.
Defined.

(** C6 as stated fails: a record of one field where seven are expected is
    made into a [DisplayMode] without complaint; its [mode_id] can be read,
    its [width] raises [IndexError] only when asked for. *)
Lemma short_record_is_decoded :
  let d_mode := DisplayMode.__init__ (VSeq Tuple [VStr "1920x1200@60"]) in
  DisplayMode.mode_info d_mode = VSeq Tuple [VStr "1920x1200@60"] /\
  DisplayMode.mode_id d_mode = Ok (VStr "1920x1200@60") /\
  DisplayMode.width d_mode = Raise IndexError /\
  DisplayMode.is_current d_mode = Raise IndexError.
Proof. repeat apply conj; reflexivity. Qed.

Lemma available_modes_lists_every_mode_id_witness :
  exists mode_list,
    @available_modes Sample.builtins Sample.dp1 = Ok (VSeq List mode_list) /\
    mode_list = [VStr "1920x1200@60"; VStr "1280x720@60"].
Proof.
  destruct (@available_modes_lists_every_mode_id Sample.builtins Sample.dp1
              List
              [ Sample.mode "1920x1200@60" 1920 1200 true;
                Sample.mode "1280x720@60" 1280 720 false ]
              ["1920x1200@60"; "1280x720@60"])
    as (mode_list & Hrun & Hlist & _).
  - reflexivity.
  - repeat constructor.
  - exists mode_list. split; assumption.
Defined.


(** * Further properties of the client *)

(** ** Who reaches the service, who prints *)

Section Quiet.

Context {service : MutterService} {builtins : Builtins}.

Lemma remote_keeps_stdout (c : call) (method : Bus -> result value * Bus) :
  preserves stdout (remote c method).
Proof. intro w; unfold remote; destruct (method (bus w)); reflexivity. Qed.

Lemma print_monitor_config_keeps_traffic (monitor : value) :
  preserves traffic (print_monitor_config monitor).
Proof. unfold print_monitor_config. frame. Qed.

Lemma print_current_state_keeps_traffic :
  preserves traffic print_current_state.
Proof. unfold print_current_state. frame. Qed.

Lemma perform_keeps_traffic (op : operation) :
  is_apply op = false -> preserves traffic (perform op).
Proof.
  destruct op; cbn [is_apply perform]; intro Hop; try discriminate Hop;
    unfold single_mode, extand_mode, clone_mode, serial, crtcs, outputs,
      modes, max_screen_width, max_screen_height;
    frame.
Qed.

Lemma perform_keeps_stdout (op : operation) :
  is_print op = false -> preserves stdout (perform op).
Proof.
  destruct op; cbn [is_print perform]; intro Hop; try discriminate Hop;
    unfold single_mode, extand_mode, clone_mode, serial, crtcs, outputs,
      modes, max_screen_width, max_screen_height, apply_monitors_config;
    repeat (cbv beta;
            first [ apply remote_keeps_stdout | frame_step ]).
Qed.

(** X1: of the methods a caller has on an instance, only
    [apply_monitors_config] talks to the compositor.  A run of builders,
    printings, mode listings and property reads sends nothing and leaves
    the service where it was: the properties and the printed state are
    those of the fetch, never refreshed. *)
Theorem only_apply_reaches_the_service (ops : list operation) (w : world) :
  forallb (fun op => negb (is_apply op)) ops = true ->
  bus (perform_all ops w) = bus w /\
  calls (perform_all ops w) = calls w.
Proof.
  revert w. induction ops as [| op rest IH]; intros w Hops;
    cbn [perform_all forallb] in *.
  - split; reflexivity.
  - apply andb_prop in Hops. destruct Hops as [Hop Hrest].
    apply negb_true_iff in Hop.
    destruct (IH (after (perform op) w) Hrest) as [Hbus Hcalls].
    pose proof (perform_keeps_traffic op Hop w) as Hframe.
    unfold traffic in Hframe. injection Hframe as Hb Hc.
    unfold after in *. split; congruence.
Qed.

(** X2: only the two printing methods write to the output.  Builders,
    mode listings, property reads and applies print nothing. *)
Theorem only_the_printers_print (ops : list operation) (w : world) :
  forallb (fun op => negb (is_print op)) ops = true ->
  stdout (perform_all ops w) = stdout w.
Proof.
  revert w. induction ops as [| op rest IH]; intros w Hops;
    cbn [perform_all forallb] in *.
  - reflexivity.
  - apply andb_prop in Hops. destruct Hops as [Hop Hrest].
    apply negb_true_iff in Hop.
    rewrite (IH _ Hrest). apply (perform_keeps_stdout op Hop).
Qed.

Lemma new_calls (w : world) (r : result value) (b1 : Bus) :
  GetResources (bus w) = (r, b1) ->
  calls (after new w) =
  calls w ++
  match r with
  | Ok _ => [CallGetResources; CallGetCurrentState]
  | Raise _ => [CallGetResources]
  end.
Proof.
  intro Hres.
  unfold after, new, __init__, bind, setattr, getattr, remote, lift,
    with_self.
  cbn. rewrite Hres. destruct r as [res | e]; cbn; [ | reflexivity ].
  rewrite <- app_assoc.
  destruct (GetCurrentState b1) as [[cur | e] b2]; cbn; [ | reflexivity ].
  destruct (getitem cur (VInt 0)); reflexivity.
Qed.

(** X3: the script, once it has reached the session bus and called
    [GetResources], makes the reads of one fetch and nothing else.  When
    that call fails it is the only one; when it is answered
    [GetCurrentState] follows, and whatever that returns and whatever is
    printed, no third call is made.  No [ApplyMonitorsConfig] goes out:
    running the script does not change the configuration of the
    displays. *)
Theorem main_only_reads (w : world) (r : result value) (b1 : Bus) :
  GetResources (bus w) = (r, b1) ->
  calls (after main w) =
    calls w ++
    match r with
    | Ok _ => [CallGetResources; CallGetCurrentState]
    | Raise _ => [CallGetResources]
    end /\
  filter (fun c => negb (is_read c)) (calls (after main w)) =
    filter (fun c => negb (is_read c)) (calls w).
Proof.
  intro Hres.
  assert (Hcalls : calls (after main w) = calls (after new w)).
  { unfold after, main, bind.
    destruct (new w) as [[[] | e] w1]; cbn [snd]; [ | reflexivity ].
    pose proof (print_current_state_keeps_traffic w1) as Hframe.
    unfold traffic in Hframe. injection Hframe as _ Hc. exact Hc. }
  rewrite Hcalls, (new_calls w Hres).
  split; [reflexivity | ].
  rewrite filter_app. destruct r; cbn; apply app_nil_r.
Qed.

End Quiet.

(** ** The apply call and the service *)

Section ApplyAgain.

Context {service : MutterService} {builtins : Builtins}.

Lemma perform_apply_calls (w : world) :
  calls (after (perform OpApply) w) = calls (after apply_monitors_config w).
Proof.
  unfold after. cbn [perform]. unfold bind.
  destruct (apply_monitors_config w) as [[[] | e] w1]; reflexivity.
Qed.

(** X4: an apply neither hides nor invents a failure.  When the service
    rejects the call the exception is the method's; when it answers, the
    answer is dropped and the method returns.  Either way the service is
    in the state it chose, and the instance keeps its attributes and
    prints nothing. *)
Theorem apply_returns_what_the_service_decides
  (w : world) (px : proxy) (s : value) :
  interface (self w) = Some px ->
  config_serial (self w) = Some s ->
  let answer :=
    ApplyMonitorsConfig s (VInt TEMPORARY_METHOD) fixed_monitors (VDict [])
      (bus w) in
  outcome apply_monitors_config w = rbind (fst answer) (fun _ => Ok tt) /\
  bus (after apply_monitors_config w) = snd answer /\
  self (after apply_monitors_config w) = self w /\
  stdout (after apply_monitors_config w) = stdout w.
Proof.
  intros Hi Hs answer. subst answer.
  unfold outcome, after, apply_monitors_config, bind, getattr, remote, ret,
    TEMPORARY_METHOD.
  rewrite Hi, Hs.
  destruct (ApplyMonitorsConfig s (VInt 1) fixed_monitors (VDict []) (bus w))
    as [[r | e] b]; cbn; repeat apply conj; reflexivity.
Qed.

(** X5: the serial an instance submits never moves.  In any run of
    operations every apply sends the same call, with the serial of the
    fetch, whether or not an earlier apply went through: the instance does
    not fetch again after changing the configuration. *)
Theorem every_apply_resubmits_the_same_call
  (ops : list operation) (w : world) (px : proxy) (s : value) :
  interface (self w) = Some px ->
  config_serial (self w) = Some s ->
  calls (perform_all ops w) =
  calls w ++
  repeat (CallApplyMonitorsConfig s (VInt TEMPORARY_METHOD) fixed_monitors
            (VDict []))
         (List.length (filter is_apply ops)).
Proof.
  revert w. induction ops as [| op rest IH]; intros w Hi Hs;
    cbn [perform_all filter].
  - cbn. rewrite app_nil_r. reflexivity.
  - assert (Hself : self (after (perform op) w) = self w)
      by apply perform_keeps_self.
    rewrite IH by (rewrite Hself; assumption).
    destruct (is_apply op) eqn:Hop.
    + destruct op; try discriminate Hop.
      rewrite perform_apply_calls, (apply_call w Hi Hs).
      cbn [List.length repeat]. rewrite <- app_assoc. reflexivity.
    + pose proof (perform_keeps_traffic op Hop w) as Hframe.
      unfold traffic in Hframe. injection Hframe as _ Hc.
      unfold after. rewrite Hc. reflexivity.
Qed.

(** X6: the [serial] property and the apply call read different replies.
    After a fetch the property returns the first element of the legacy
    listing, while the apply submits the first element of the current
    state; the two are the same only if the two replies agree. *)
Theorem serial_property_reads_the_legacy_listing
  (w : world) (res cur s : value) (b1 b2 : Bus) :
  GetResources (bus w) = (Ok res, b1) ->
  GetCurrentState b1 = (Ok cur, b2) ->
  getitem cur (VInt 0) = Ok s ->
  let w1 := after new w in
  outcome serial w1 = getitem res (VInt 0) /\
  after serial w1 = w1 /\
  calls (after apply_monitors_config w1) =
    calls w1 ++
    [CallApplyMonitorsConfig s (VInt TEMPORARY_METHOD) fixed_monitors
       (VDict [])].
Proof.
  intros Hres Hcur Hs w1.
  assert (Hw1 : w1 = snd (new w)) by reflexivity.
  rewrite (new_answered w Hres Hcur Hs) in Hw1. cbn [snd] in Hw1.
  repeat apply conj.
  - rewrite Hw1. unfold outcome, serial, bind, getattr, lift. cbn.
    destruct (getitem res (VInt 0)); reflexivity.
  - rewrite Hw1. unfold after, serial, bind, getattr, lift. cbn.
    destruct (getitem res (VInt 0)); reflexivity.
  - eapply apply_call; rewrite Hw1; reflexivity.
Qed.

End ApplyAgain.

(** ** A fetch that fails *)

Section FetchErrors.

Context {service : MutterService}.

(** X7: when the legacy read fails the fetch fails with the same
    exception, at once: [GetCurrentState] is not called, and no listing
    and no serial is kept. *)
Theorem fetch_stops_at_a_failed_legacy_read
  (w : world) (e : exn) (b1 : Bus) :
  GetResources (bus w) = (Raise e, b1) ->
  outcome new w = Raise e /\
  calls (after new w) = calls w ++ [CallGetResources] /\
  bus (after new w) = b1 /\
  snapshot (self (after new w)) = (None, None, None).
Proof.
  intro Hres.
  unfold outcome, after, new, __init__, bind, setattr, getattr, remote, lift,
    with_self.
  cbn. rewrite Hres. cbn. repeat apply conj; reflexivity.
Qed.

(** X8: when the current-state read fails, or its reply has no first
    element to take the serial from, the fetch fails with that exception
    after its two reads, without a serial: the instance is never left
    with a serial that did not come from a current-state reply. *)
Theorem fetch_fails_without_a_state_serial
  (w : world) (res : value) (e : exn) (b1 b2 : Bus) :
  GetResources (bus w) = (Ok res, b1) ->
  fst (GetCurrentState b1) = Raise e \/
  (exists cur, fst (GetCurrentState b1) = Ok cur /\
               getitem cur (VInt 0) = Raise e) ->
  snd (GetCurrentState b1) = b2 ->
  outcome new w = Raise e /\
  calls (after new w) = calls w ++ [CallGetResources; CallGetCurrentState] /\
  bus (after new w) = b2 /\
  config_serial (self (after new w)) = None.
Proof.
  intros Hres Hfail Hb2.
  unfold outcome, after, new, __init__, bind, setattr, getattr, remote, lift,
    with_self.
  cbn. rewrite Hres. cbn.
  destruct (GetCurrentState b1) as [r b] eqn:Hcur. cbn [fst snd] in *.
  subst b. rewrite <- app_assoc.
  destruct Hfail as [-> | (cur & -> & Hs)]; cbn.
  - repeat apply conj; reflexivity.
  - rewrite Hs. cbn. repeat apply conj; reflexivity.
Qed.

(** X9: a fetch returns exactly when both reads are answered and the
    current-state reply has a first element; what the legacy listing
    holds plays no part. *)
Theorem fetch_returns_iff_both_reads_are_answered (w : world) :
  outcome new w = Ok tt <->
  exists res cur s,
    fst (GetResources (bus w)) = Ok res /\
    fst (GetCurrentState (snd (GetResources (bus w)))) = Ok cur /\
    getitem cur (VInt 0) = Ok s.
Proof.
  split.
  - intro Hnew.
    destruct (new_inv w Hnew) as (res & cur & s & b1 & b2 & Hres & Hcur & Hs).
    exists res, cur, s. rewrite Hres. cbn [fst snd]. rewrite Hcur. auto.
  - intros (res & cur & s & Hres & Hcur & Hs).
    destruct (GetResources (bus w)) as [r b1] eqn:Hr. cbn [fst snd] in *.
    destruct (GetCurrentState b1) as [r' b2] eqn:Hc. cbn [fst] in *.
    subst r r'. unfold outcome. rewrite (new_answered w Hr Hc Hs).
    reflexivity.
Qed.

End FetchErrors.

(** ** Reading a mode *)

Lemma existsb_key_lookup (key : string) (d : list (string * value)) :
  existsb (fun kv => String.eqb key (fst kv)) d = true <->
  exists v, lookup key d = Some v.
Proof.
  induction d as [| [k v] d IH]; cbn [existsb lookup fst].
  - split; [discriminate | intros [v H]; discriminate H].
  - destruct (String.eqb key k); cbn [orb].
    + split; [intros _; exists v; reflexivity | reflexivity].
    + exact IH.
Qed.

(** X10: a mode is the current one exactly when its properties, the
    seventh field, have the key ["is-current"]; the value under the key is
    not looked at, so a mode carrying [is-current: False] counts as
    current too. *)
Theorem is_current_tests_the_key_only
  (k : seq_kind) (l : list value) (d : list (string * value)) :
  nth_error l 6 = Some (VDict d) ->
  exists b,
    DisplayMode.is_current (DisplayMode.__init__ (VSeq k l)) = Ok b /\
    (b = true <-> exists v, lookup "is-current" d = Some v).
Proof.
  intro Hprops.
  exists (existsb (fun kv => String.eqb "is-current" (fst kv)) d).
  split; [ | apply existsb_key_lookup ].
  unfold DisplayMode.is_current, DisplayMode.properties.
  cbn [DisplayMode.__init__ DisplayMode.mode_info].
  change (VInt 6) with (VInt (Z.of_nat 6)).
  rewrite getitem_seq_nat, Hprops. reflexivity.
Qed.

(** X11: the text of a mode is made of its second, third and fourth
    fields, width, height and refresh rate, in that order; the mode id is
    not used.  A record of fewer than four fields has no text:
    [IndexError]. *)
Theorem str_shows_width_height_frequency (k : seq_kind) (l : list value) :
  DisplayMode.__str__ (DisplayMode.__init__ (VSeq k l)) =
  match l with
  | _ :: w :: h :: f :: _ => Ok (Format "%sx%s@%s" [w; h; f])
  | _ => Raise IndexError
  end.
Proof.
  unfold DisplayMode.__str__, DisplayMode.width, DisplayMode.height,
    DisplayMode.frequency.
  cbn [DisplayMode.__init__ DisplayMode.mode_info].
  change (VInt 1) with (VInt (Z.of_nat 1)).
  change (VInt 2) with (VInt (Z.of_nat 2)).
  change (VInt 3) with (VInt (Z.of_nat 3)).
  rewrite !getitem_seq_nat.
  destruct l as [| i [| w [| h [| f rest]]]]; reflexivity.
Qed.

(** ** Listing modes, all or nothing *)

Section AvailableModesAgain.

Context {builtins : Builtins}.

Lemma rmap_is_ok {A B} (f : A -> result B) (l : list A) :
  is_ok (rmap f l) = forallb (fun a => is_ok (f a)) l.
Proof.
  induction l as [| a l IH]; cbn [rmap forallb]; [reflexivity | ].
  destruct (f a); cbn [rbind is_ok andb]; [ | reflexivity ].
  rewrite <- IH. destruct (rmap f l); reflexivity.
Qed.

Lemma rmap_length {A B} (f : A -> result B) (l : list A) (bs : list B) :
  rmap f l = Ok bs -> List.length bs = List.length l.
Proof.
  revert bs. induction l as [| a l IH]; cbn [rmap]; intros bs H.
  - injection H as <-. reflexivity.
  - destruct (f a); cbn [rbind] in H; [ | discriminate H ].
    destruct (rmap f l) as [bs' | ]; cbn [rbind] in H; [ | discriminate H ].
    injection H as <-. cbn [List.length]. rewrite (IH bs'); reflexivity.
Qed.

Lemma rmap_then_is_ok {A B C} (f : A -> result B) (g : B -> C) (l : list A) :
  is_ok (rmap (fun a => rbind (f a) (fun b => Ok (g b))) l) = is_ok (rmap f l).
Proof.
  induction l as [| a l IH]; cbn [rmap]; [reflexivity | ].
  destruct (f a); cbn [rbind]; [ | reflexivity ].
  destruct (rmap _ l); destruct (rmap f l); cbn [rbind is_ok] in *;
    congruence.
Qed.

(** X12: [available_modes] returns a list exactly when every mode of the
    monitor has a first field, whatever that field is; one mode without it
    and there is no list at all, not a shorter one.  A list that is
    returned has one entry per mode. *)
Theorem available_modes_is_all_or_nothing
  (monitor : value) (k : seq_kind) (modes : list value) :
  getitem monitor (VInt 1) = Ok (VSeq k modes) ->
  is_ok (available_modes monitor) =
    forallb (fun mode => is_ok (getitem mode (VInt 0))) modes /\
  match available_modes monitor with
  | Ok (VSeq List mode_list) => List.length mode_list = List.length modes
  | Ok _ => False
  | Raise _ => True
  end.
Proof.
  intro Hmodes. unfold available_modes. rewrite Hmodes. cbn [rbind iter].
  split.
  - rewrite <- (rmap_is_ok (fun mode => getitem mode (VInt 0))).
    rewrite <- (rmap_then_is_ok (fun mode => getitem mode (VInt 0))
                  (fun id => VStr (str id))).
    destruct (rmap _ modes); reflexivity.
  - destruct (rmap _ modes) as [mode_list | e] eqn:Hrun; cbn [rbind];
      [ | exact I ].
    exact (rmap_length _ _ Hrun).
Qed.

End AvailableModesAgain.

(** ** What gets printed *)

Section Printing.

Context {service : MutterService} {builtins : Builtins}.

Lemma printed_nil (w : world) : printed [] w = w.
Proof. destruct w; unfold printed; cbn. rewrite app_nil_r. reflexivity. Qed.

Lemma printed_printed (a b : list (list text)) (w : world) :
  printed b (printed a w) = printed (a ++ b) w.
Proof. unfold printed; cbn. rewrite app_assoc. reflexivity. Qed.

Lemma print_printed (line : list text) (w : world) :
  print line w = (Ok tt, printed [line] w).
Proof. reflexivity. Qed.

Lemma bind_ok {A B} (m : M A) (k : A -> M B) (w w' : world) (a : A) :
  m w = (Ok a, w') -> bind m k w = k a w'.
Proof. intro H. unfold bind. rewrite H. reflexivity. Qed.

Lemma bind_lift_ok {A B} (r : result A) (k : A -> M B) (w : world) (a : A) :
  r = Ok a -> bind (lift r) k w = k a w.
Proof. intros ->. reflexivity. Qed.

Lemma bind_lift_raise {A B} (r : result A) (k : A -> M B) (w : world)
  (e : exn) :
  r = Raise e -> bind (lift r) k w = (Raise e, w).
Proof. intros ->. reflexivity. Qed.

(** A loop whose every turn prints some lines and goes on prints them all,
    in the order of the items. *)
Lemma for_each_prints (body : value -> M unit) (items : list value)
  (liness : list (list (list text))) :
  Forall2 (fun item lines => forall w, body item w = (Ok tt, printed lines w))
          items liness ->
  forall w, for_each body items w = (Ok tt, printed (List.concat liness) w).
Proof.
  induction 1 as [| item lines items liness Hitem _ IH]; intro w;
    cbn [for_each List.concat].
  - unfold ret. rewrite printed_nil. reflexivity.
  - cbv beta iota; erewrite bind_ok by exact (Hitem w).
    rewrite IH, printed_printed. reflexivity.
Qed.

Lemma Forall2_map_both {A B C} (P : B -> C -> Prop) (f : A -> B) (g : A -> C)
  (l : list A) :
  Forall (fun a => P (f a) (g a)) l -> Forall2 P (map f l) (map g l).
Proof. induction 1; cbn [map]; constructor; assumption. Qed.

Lemma concat_map_singleton {A B} (f : A -> B) (l : list A) :
  List.concat (map (fun a => [f a]) l) = map f l.
Proof. induction l as [| a l IH]; cbn; [ | rewrite IH ]; reflexivity. Qed.

Lemma mode_turn (mode : value) (w : world) :
  printable mode = true ->
  bind (lift (DisplayMode.is_current (DisplayMode.__init__ mode)))
    (fun current : bool =>
       if current
       then bind (lift (DisplayMode.__str__ (DisplayMode.__init__ mode)))
              (fun shown => print [Lit "Current: "; shown])
       else ret tt) w =
  (Ok tt, printed (current_lines mode) w).
Proof.
  unfold printable, current_lines.
  destruct (DisplayMode.is_current (DisplayMode.__init__ mode)) as [[] | e];
    intro Hp; try discriminate Hp.
  - destruct (DisplayMode.__str__ (DisplayMode.__init__ mode)) as [shown | e];
      try discriminate Hp.
    reflexivity.
  - cbn. unfold ret. rewrite printed_nil. reflexivity.
Qed.

Lemma print_monitor_config_run
  (w : world) (monitor monitor_info modes props : value) (joined : string)
  (mode_items : list value) :
  unpack 3 monitor = Ok [monitor_info; modes; props] ->
  join " " monitor_info = Ok joined ->
  iter modes = Ok mode_items ->
  forallb printable mode_items = true ->
  print_monitor_config monitor w =
  (Ok tt, printed (config_lines joined mode_items props) w).
Proof.
  intros Hunpack Hjoin Hiter Hmodes.
  unfold print_monitor_config.
  cbv beta iota; erewrite bind_ok by exact (print_printed _ w).
  cbv beta iota; erewrite bind_lift_ok by exact Hunpack.
  cbv beta iota; erewrite bind_lift_ok by exact Hjoin.
  cbv beta iota; erewrite bind_ok by exact (print_printed _ _).
  cbv beta iota; erewrite bind_lift_ok by exact Hiter.
  cbv beta iota; erewrite bind_ok.
  2:{ apply for_each_prints with (liness := map current_lines mode_items).
      rewrite <- (map_id mode_items) at 1.
      apply Forall2_map_both. apply Forall_forall. intros mode Hin w'.
      apply mode_turn.
      rewrite forallb_forall in Hmodes. apply Hmodes, Hin. }
  rewrite print_printed, !printed_printed.
  unfold config_lines. rewrite flat_map_concat_map. reflexivity.
Qed.

(** X13: for a monitor record of three fields, names that are all
    strings and modes that can be read, [print_monitor_config] returns
    and prints a header, the names joined by blanks, one line for every
    mode that is current, in the order of the record, and the properties;
    nothing else changes. *)
Theorem print_monitor_config_lists_the_current_modes
  (w : world) (monitor monitor_info modes props : value) (joined : string)
  (mode_items : list value) :
  unpack 3 monitor = Ok [monitor_info; modes; props] ->
  join " " monitor_info = Ok joined ->
  iter modes = Ok mode_items ->
  forallb printable mode_items = true ->
  outcome (print_monitor_config monitor) w = Ok tt /\
  stdout (after (print_monitor_config monitor) w) =
    stdout w
    ++ [[Lit "Print Monitor Config"]; [Lit joined]]
    ++ flat_map current_lines mode_items
    ++ [[Shown props]] /\
  List.length (flat_map current_lines mode_items) =
    List.length
      (filter (fun mode =>
                 match DisplayMode.is_current (DisplayMode.__init__ mode) with
                 | Ok current => current
                 | Raise _ => false
                 end)
              mode_items).
Proof.
  intros Hunpack Hjoin Hiter Hmodes.
  unfold outcome, after.
  rewrite (print_monitor_config_run w monitor Hunpack Hjoin Hiter Hmodes).
  repeat apply conj; try reflexivity.
  clear Hiter Hunpack. induction mode_items as [| mode rest IH];
    [reflexivity | ].
  cbn [forallb] in Hmodes. apply andb_prop in Hmodes.
  destruct Hmodes as [Hmode Hrest].
  cbn [flat_map filter]. rewrite length_app, (IH Hrest).
  unfold printable in Hmode. unfold current_lines.
  destruct (DisplayMode.is_current (DisplayMode.__init__ mode)) as [[] | e];
    try discriminate Hmode.
  - destruct (DisplayMode.__str__ (DisplayMode.__init__ mode));
      try discriminate Hmode.
    reflexivity.
  - reflexivity.
Qed.

(** X14: a record that does not have exactly three fields is turned
    down with [ValueError], but only after the header went out. *)
Theorem print_monitor_config_wants_three_fields
  (w : world) (monitor : value) (items : list value) :
  iter monitor = Ok items ->
  List.length items <> 3%nat ->
  outcome (print_monitor_config monitor) w = Raise ValueError /\
  stdout (after (print_monitor_config monitor) w) =
    stdout w ++ [[Lit "Print Monitor Config"]].
Proof.
  intros Hiter Hlen.
  assert (Hunpack : unpack 3 monitor = Raise ValueError).
  { unfold unpack. rewrite Hiter. cbn [rbind].
    destruct (Nat.eqb_spec (List.length items) 3); [contradiction | ].
    reflexivity. }
  unfold outcome, after, print_monitor_config.
  cbv beta iota; erewrite bind_ok by exact (print_printed _ w).
  cbv beta iota; erewrite bind_lift_raise by exact Hunpack. split; reflexivity.
Qed.

End Printing.

Section PrintingTheState.

Context {service : MutterService} {builtins : Builtins}.

Lemma bind_getattr_ok {A B} (name : string) (field : attrs -> option A)
  (k : A -> M B) (w : world) (a : A) :
  field (self w) = Some a -> bind (getattr name field) k w = k a w.
Proof. intro H. unfold bind, getattr. rewrite H. reflexivity. Qed.

Lemma lookup_NoDup (d : list (string * value)) (k : string) (v : value) :
  NoDup (map fst d) -> In (k, v) d -> lookup k d = Some v.
Proof.
  induction d as [| [k' v'] d IH]; cbn [map fst lookup In];
    intros Hnodup Hin; [contradiction | ].
  inversion Hnodup as [| ? ? Hfresh Hrest]; subst.
  destruct Hin as [Heq | Hin].
  - injection Heq as -> ->. rewrite String.eqb_refl. reflexivity.
  - destruct (String.eqb_spec k k') as [-> | Hne].
    + exfalso. apply Hfresh. apply (in_map fst) in Hin. exact Hin.
    + apply IH; assumption.
Qed.

Lemma monitor_turn (monitor : value) (lines : list (list text)) :
  monitor_printout monitor lines ->
  forall w,
    bind (print [Lit "Available Monitor Modes"])
      (fun _ =>
         bind (lift (available_modes monitor))
           (fun mode_list =>
              bind (print [Shown mode_list])
                (fun _ => print_monitor_config monitor))) w =
    (Ok tt, printed lines w).
Proof.
  intros (monitor_info & modes & props & mode_list & joined & mode_items
          & Havail & Hunpack & Hjoin & Hiter & Hmodes & ->) w.
  cbv beta iota; erewrite bind_ok by exact (print_printed _ w).
  cbv beta iota; erewrite bind_lift_ok by exact Havail.
  cbv beta iota; erewrite bind_ok by exact (print_printed _ _).
  rewrite (print_monitor_config_run _ monitor Hunpack Hjoin Hiter Hmodes).
  rewrite !printed_printed. reflexivity.
Qed.

Lemma property_turn (d : list (string * value)) (kv : string * value) :
  NoDup (map fst d) -> In kv d ->
  forall w,
    bind (lift (getitem (VDict d) (VStr (fst kv))))
      (fun v =>
         bind (lift (percent "%s: %s" (VSeq Tuple [VStr (fst kv); v])))
           (fun line => print [line])) w =
    (Ok tt, printed [[Format "%s: %s" [VStr (fst kv); snd kv]]] w).
Proof.
  intros Hnodup Hin w. destruct kv as [k v]. cbn [fst snd getitem].
  rewrite (lookup_NoDup d k v Hnodup Hin). reflexivity.
Qed.

(** X15: what [print_current_state] prints for a state of four fields
    whose monitors can all be printed: the serial of the current state,
    the number of monitors, for each monitor the list of its modes and its
    configuration, the logical monitors one per line, and the properties
    one per line, each part in the order of the reply.  It returns,
    sends nothing to the service and keeps the instance as it is. *)
Theorem print_current_state_prints_the_whole_state
  (w : world) (k km kl : seq_kind) (s : value)
  (monitors logical : list value) (d : list (string * value))
  (first : text) (reports : list (list (list text))) :
  current_state (self w) =
    Some (VSeq k [s; VSeq km monitors; VSeq kl logical; VDict d]) ->
  percent "Serial: %s" s = Ok first ->
  Forall2 monitor_printout monitors reports ->
  NoDup (map fst d) ->
  outcome print_current_state w = Ok tt /\
  stdout (after print_current_state w) =
    stdout w
    ++ [[first];
        [Lit "Monitors num:"; Shown (VInt (Z.of_nat (List.length monitors)))]]
    ++ List.concat reports
    ++ [[Lit "Logical monitors"]]
    ++ map (fun monitor => [Shown monitor]) logical
    ++ [[Lit "PROPS"]]
    ++ map (fun kv => [Format "%s: %s" [VStr (fst kv); snd kv]]) d /\
  traffic (after print_current_state w) = traffic w /\
  self (after print_current_state w) = self w.
Proof.
  intros Hstate Hfirst Hmonitors Hnodup.
  assert (Hrun :
            print_current_state w =
            (Ok tt,
             printed
               ([[first];
                 [Lit "Monitors num:";
                  Shown (VInt (Z.of_nat (List.length monitors)))]]
                ++ List.concat reports
                ++ [[Lit "Logical monitors"]]
                ++ map (fun monitor => [Shown monitor]) logical
                ++ [[Lit "PROPS"]]
                ++ map (fun kv => [Format "%s: %s" [VStr (fst kv); snd kv]]) d)
               w)).
  { unfold print_current_state.
    rewrite (bind_getattr_ok _ _ _ _ Hstate).
    cbv beta iota; erewrite bind_lift_ok by reflexivity.
    cbv beta iota; erewrite bind_lift_ok by exact Hfirst.
    cbv beta iota; erewrite bind_ok by exact (print_printed _ _).
    cbv beta iota; erewrite bind_lift_ok by reflexivity.
    cbv beta iota; erewrite bind_ok by exact (print_printed _ _).
    cbv beta iota; erewrite bind_lift_ok by reflexivity.
    cbv beta iota; erewrite bind_ok.
    2:{ apply for_each_prints with (liness := reports).
        eapply Forall2_impl; [ | exact Hmonitors ].
        intros monitor lines Hprint. apply monitor_turn. exact Hprint. }
    cbv beta iota; erewrite bind_ok by exact (print_printed _ _).
    cbv beta iota; erewrite bind_lift_ok by reflexivity.
    cbv beta iota; erewrite bind_ok.
    2:{ apply for_each_prints
          with (liness := map (fun monitor => [[Shown monitor]]) logical).
        rewrite <- (map_id logical) at 1.
        apply Forall2_map_both. apply Forall_forall.
        intros monitor _ w'. reflexivity. }
    cbv beta iota; erewrite bind_ok by exact (print_printed _ _).
    cbv beta iota; erewrite bind_lift_ok by reflexivity.
    rewrite for_each_prints
      with (liness :=
              map (fun kv => [[Format "%s: %s" [VStr (fst kv); snd kv]]]) d).
    2:{ apply Forall2_map_both. apply Forall_forall.
        intros kv Hin w'. apply property_turn; assumption. }
    rewrite !printed_printed, !concat_map_singleton.
    reflexivity. }
  unfold outcome, after. rewrite Hrun. repeat apply conj; reflexivity.
Qed.

(** X16: a current state that does not have exactly four fields is
    turned down with [ValueError] before anything is printed. *)
Theorem print_current_state_wants_four_fields
  (w : world) (state : value) (items : list value) :
  current_state (self w) = Some state ->
  iter state = Ok items ->
  List.length items <> 4%nat ->
  print_current_state w = (Raise ValueError, w).
Proof.
  intros Hstate Hiter Hlen.
  assert (Hunpack : unpack 4 state = Raise ValueError).
  { unfold unpack. rewrite Hiter. cbn [rbind].
    destruct (Nat.eqb_spec (List.length items) 4); [contradiction | ].
    reflexivity. }
  unfold print_current_state.
  rewrite (bind_getattr_ok _ _ _ _ Hstate).
  cbv beta iota; erewrite bind_lift_raise by exact Hunpack. reflexivity.
Qed.

End PrintingTheState.

(** * Further instances on the sample data *)

Lemma only_apply_reaches_the_service_witness :
  calls (@perform_all Sample.scripted Sample.builtins
           [OpSerial; OpPrintCurrentState; OpAvailableModes Sample.dp1;
            OpClone (VInt 0) (VInt 0) (VDouble 1) (VInt 0) (VBool true)
              (VSeq List [Sample.output_a; Sample.output_b])]
           (after new Sample.quiet)) =
  [CallGetResources; CallGetCurrentState].
Proof.
  edestruct (@only_apply_reaches_the_service Sample.scripted Sample.builtins)
    as [_ Hcalls]; [ | rewrite Hcalls ]; reflexivity.
Defined.

Lemma main_only_reads_witness :
  calls (@after Sample.scripted unit
           (@main Sample.scripted Sample.builtins) Sample.quiet) =
    [CallGetResources; CallGetCurrentState] /\
  calls (@after Sample.scripted unit
           (@main Sample.scripted Sample.builtins)
           (Sample.start
              [Raise (DBusException
                        "org.freedesktop.DBus.Error.ServiceUnknown")])) =
    [CallGetResources].
Proof.
  split.
  - edestruct (@main_only_reads Sample.scripted Sample.builtins Sample.quiet)
      as [Hcalls _]; [ reflexivity | rewrite Hcalls; reflexivity ].
  - edestruct (@main_only_reads Sample.scripted Sample.builtins
                 (Sample.start
                    [Raise (DBusException
                              "org.freedesktop.DBus.Error.ServiceUnknown")]))
      as [Hcalls _]; [ reflexivity | rewrite Hcalls; reflexivity ].
Defined.

Lemma only_the_printers_print_witness :
  stdout (@perform_all Sample.scripted Sample.builtins
            [OpSerial; OpApply; OpAvailableModes Sample.dp1]
            (after new Sample.quiet)) = [].
Proof.
  erewrite (@only_the_printers_print Sample.scripted Sample.builtins);
    reflexivity.
Defined.

Lemma apply_returns_what_the_service_decides_witness :
  let w := @after Sample.scripted unit new
             (Sample.start
                [ Ok (Sample.resources_reply 7); Ok (Sample.state_reply 7);
                  Raise (DBusException
                           "org.freedesktop.DBus.Error.AccessDenied") ]) in
  outcome apply_monitors_config w =
    Raise (DBusException "org.freedesktop.DBus.Error.AccessDenied") /\
  self (after apply_monitors_config w) = self w.
Proof.
  intro w.
  edestruct (@apply_returns_what_the_service_decides Sample.scripted w)
    as (Hout & _ & Hself & _);
    [ reflexivity | reflexivity | ].
  split; [ rewrite Hout; reflexivity | exact Hself ].
Defined.

Lemma every_apply_resubmits_the_same_call_witness :
  calls (@perform_all Sample.scripted Sample.builtins
           [OpApply; OpSerial; OpApply] (after new Sample.quiet)) =
  [ CallGetResources; CallGetCurrentState;
    CallApplyMonitorsConfig (VInt 7) (VInt 1) fixed_monitors (VDict []);
    CallApplyMonitorsConfig (VInt 7) (VInt 1) fixed_monitors (VDict []) ].
Proof.
  erewrite (@every_apply_resubmits_the_same_call Sample.scripted
              Sample.builtins);
    reflexivity.
Defined.

Lemma serial_property_reads_the_legacy_listing_witness :
  @outcome Sample.scripted value serial (after new Sample.racing) =
    Ok (VInt 1) /\
  calls (@after Sample.scripted unit apply_monitors_config
           (after new Sample.racing)) =
    [ CallGetResources; CallGetCurrentState;
      CallApplyMonitorsConfig (VInt 2) (VInt 1) fixed_monitors (VDict []) ].
Proof.
  edestruct (@serial_property_reads_the_legacy_listing Sample.scripted
               Sample.racing)
    as (Hserial & _ & Hcalls);
    [ reflexivity | reflexivity | reflexivity | ].
  split; [ rewrite Hserial | rewrite Hcalls ]; reflexivity.
Defined.

Lemma fetch_stops_at_a_failed_legacy_read_witness :
  let w := Sample.start
             [ Raise (DBusException
                        "org.freedesktop.DBus.Error.ServiceUnknown");
               Ok (Sample.state_reply 7) ] in
  @outcome Sample.scripted unit new w =
    Raise (DBusException "org.freedesktop.DBus.Error.ServiceUnknown") /\
  calls (after new w) = [CallGetResources].
Proof.
  intro w.
  edestruct (@fetch_stops_at_a_failed_legacy_read Sample.scripted w)
    as (Hout & Hcalls & _); [ reflexivity | ].
  split; [ exact Hout | rewrite Hcalls; reflexivity ].
Defined.

Lemma fetch_fails_without_a_state_serial_witness :
  let w := Sample.start [Ok (Sample.resources_reply 7); Ok (VSeq Tuple [])] in
  @outcome Sample.scripted unit new w = Raise IndexError /\
  calls (after new w) = [CallGetResources; CallGetCurrentState] /\
  config_serial (self (after new w)) = None.
Proof.
  intro w.
  edestruct (@fetch_fails_without_a_state_serial Sample.scripted w)
    as (Hout & Hcalls & _ & Hserial);
    [ reflexivity
    | right; exists (VSeq Tuple []); split; reflexivity
    | reflexivity
    | ].
  repeat apply conj; [ exact Hout | rewrite Hcalls; reflexivity | exact Hserial ].
Defined.

Lemma is_current_tests_the_key_only_witness :
  exists b,
    DisplayMode.is_current
      (DisplayMode.__init__
         (VSeq Tuple
            [ VStr "1920x1200@60"; VInt 1920; VInt 1200; VDouble (60 # 1);
              VDouble 1; VSeq List [VDouble 1];
              VDict [("is-current", VBool false)] ])) = Ok b /\
    b = true.
Proof.
  edestruct (@is_current_tests_the_key_only Tuple) as (b & Hrun & Hb);
    [ | exists b; split; [ exact Hrun | ] ].
  - reflexivity.
  - apply Hb. exists (VBool false). reflexivity.
Defined.

Lemma available_modes_is_all_or_nothing_witness :
  is_ok (@available_modes Sample.builtins
           (Sample.monitor "DP-1"
              [Sample.mode "1920x1200@60" 1920 1200 true; VSeq Tuple []])) =
  false.
Proof.
  edestruct (@available_modes_is_all_or_nothing Sample.builtins)
    as [Hok _]; [ | rewrite Hok ]; reflexivity.
Defined.

Lemma print_monitor_config_lists_the_current_modes_witness :
  stdout (@after Sample.scripted unit (print_monitor_config Sample.dp1)
            (Sample.start [])) =
  [ [Lit "Print Monitor Config"]; [Lit "DP-1 VND Panel 0x01"];
    [Lit "Current: "; Format "%sx%s@%s" [VInt 1920; VInt 1200; VDouble (60 # 1)]];
    [Shown (VDict [])] ].
Proof.
  edestruct (@print_monitor_config_lists_the_current_modes Sample.scripted
               (Sample.start []) Sample.dp1)
    as (_ & Hout & _);
    [ reflexivity | reflexivity | reflexivity | | rewrite Hout ];
    reflexivity.
Defined.

Lemma print_monitor_config_wants_three_fields_witness :
  let logical :=
    VSeq Tuple [VInt 0; VInt 0; VDouble 1; VInt 0; VBool true; VSeq List [];
                VDict []] in
  @outcome Sample.scripted unit (print_monitor_config logical)
    (Sample.start []) = Raise ValueError /\
  stdout (@after Sample.scripted unit (print_monitor_config logical)
            (Sample.start [])) = [[Lit "Print Monitor Config"]].
Proof.
  intro logical.
  edestruct (@print_monitor_config_wants_three_fields Sample.scripted
               (Sample.start []) logical)
    as (Hout & Hlines); [ reflexivity | | ].
  - cbn. discriminate.
  - split; [ exact Hout | rewrite Hlines; reflexivity ].
Defined.

Lemma print_current_state_prints_the_whole_state_witness :
  List.length
    (stdout (@after Sample.scripted unit
               (@print_current_state Sample.scripted Sample.builtins)
               (after new Sample.quiet))) = 12%nat.
Proof.
  edestruct (@print_current_state_prints_the_whole_state Sample.scripted
               Sample.builtins (after new Sample.quiet))
    as (_ & Hout & _).
  - reflexivity.
  - reflexivity.
  - constructor; [ | constructor ].
    do 6 eexists. repeat apply conj; reflexivity.
  - repeat constructor. intros [].
  - rewrite Hout. reflexivity.
Defined.

Lemma print_current_state_wants_four_fields_witness :
  let w := @after Sample.scripted unit new
             (Sample.start
                [Ok (Sample.resources_reply 7); Ok (VSeq Tuple [VInt 7])]) in
  @print_current_state Sample.scripted Sample.builtins w =
  (Raise ValueError, w).
Proof.
  intro w.
  eapply (@print_current_state_wants_four_fields Sample.scripted
            Sample.builtins w).
  - reflexivity.
  - reflexivity.
  - cbn. discriminate.
Defined.
